(** * Gmail-Sync: the calendar reconciler of [calendar_sync.py]

    A shallow embedding of [CalendarSync.create_event_key],
    [CalendarSync.get_existing_events], [CalendarSync.sync_calendars] and
    [CalendarSync.load_config], and the properties of the specification
    checked against it.

    Modelling conventions.
    - A JSON object that the program treats as a struct is a record.  A key
      the program subscripts without a guard ([d['k']]) is a plain field; a
      key it reads with [d.get('k', default)] or tests with ['k' in d] is an
      [option] field, [None] meaning that the key is absent.
    - The values stored under the keys are JSON strings or JSON null
      ([pyval]); Python's [!=] and [str()] are structural on them.
    - The remote services, the clock, the browser and the file system are an
      explicit [World] that every call threads through. *)

From Stdlib Require Import ZArith Lia Ascii.
From stdpp Require Import strings pretty gmap.

Open Scope Z_scope.

(** ** Python values and exceptions *)

(** A JSON leaf: [null] or a string. *)
Inductive pyval : Type :=
| PNone
| PStr (s : string).

#[global] Instance pyval_eq_dec : EqDecision pyval.
Proof. solve_decision. Defined.

(** [str(v)], as an f-string renders a value. *)
Definition py_str (v : pyval) : string :=
  match v with
  | PNone => "None"
  | PStr s => s
  end.

(** [a != b] *)
Definition py_ne (a b : pyval) : bool := bool_decide (a ≠ b).

(** [d.get(k, dflt)] on an optional key. *)
Definition dict_get {A : Type} (field : option A) (dflt : A) : A :=
  match field with
  | Some v => v
  | None => dflt
  end.

(** The exception classes the program distinguishes; [str(e)] is the message. *)
Inductive exn : Type :=
| FileNotFoundError (msg : string)
| JSONDecodeError (msg : string)
| Exception (msg : string).

Definition exn_str (e : exn) : string :=
  match e with
  | FileNotFoundError msg | JSONDecodeError msg | Exception msg => msg
  end.

Inductive result (A : Type) : Type :=
| Ok (a : A)
| Raise (e : exn).
Arguments Ok {A} a.
Arguments Raise {A} e.

(** ** Events *)

(** The [start] / [end] object of a Google Calendar event. *)
Record time_dict : Type := {
  dateTime : option pyval;
  date : option pyval;
  timeZone : option pyval
}.

(** A Google Calendar event as [sync_calendars] reads it. *)
Record gevent : Type := {
  g_id : option pyval;
  g_summary : option pyval;
  g_start : time_dict;
  g_end : time_dict;
  g_description : option pyval;
  g_location : option pyval
}.

(** Microsoft Graph [dateTimeTimeZone], [itemBody], [location]. *)
Record o365_time : Type := { o_dateTime : pyval; o_timeZone : pyval }.
Record o365_body : Type := { contentType : pyval; content : pyval }.
Record o365_location : Type := { displayName : pyval }.

(** The outbound payload [o365_event]. *)
Record o365_event : Type := {
  subject : pyval;
  start : o365_time;
  end_ : o365_time;
  body : option o365_body;
  location : option o365_location
}.

(** An event of the destination calendar, as the Graph read returns it. *)
Record existing_event : Type := {
  x_id : pyval;
  x_subject : pyval;
  x_start : o365_time;
  x_end : o365_time;
  x_body : option o365_body;
  x_location : option o365_location
}.

(** What [create_event_key] reads of an event of either calendar. *)
Record event_view : Type := { ev_id : option pyval; ev_start : time_dict }.

Definition gview (event : gevent) : event_view :=
  {| ev_id := g_id event; ev_start := g_start event |}.

Definition xview (event : existing_event) : event_view :=
  {| ev_id := Some (x_id event);
     ev_start := {| dateTime := Some (o_dateTime (x_start event));
                    date := None;
                    timeZone := Some (o_timeZone (x_start event)) |} |}.

(** [event['start'].get('dateTime', event['start'].get('date'))] *)
Definition start_or_date (t : time_dict) : pyval :=
  dict_get (dateTime t) (dict_get (date t) PNone).

(** [create_event_key]: the two branches of the source are the same. *)
Definition create_event_key (event : event_view) (is_google : bool) : string :=
  let '(start_time, event_id) :=
    if is_google
    then (start_or_date (ev_start event), dict_get (ev_id event) (PStr ""))
    else (start_or_date (ev_start event), dict_get (ev_id event) (PStr "")) in
  py_str event_id +:+ "_" +:+ py_str start_time.

(** The literal [o365_event = {...}] of [sync_calendars] with the two
    optional keys added. *)
Definition format_o365_event (event : gevent) (event_summary : pyval) : o365_event :=
  {| subject := event_summary;
     start := {| o_dateTime := start_or_date (g_start event);
                 o_timeZone := dict_get (timeZone (g_start event)) (PStr "UTC") |};
     end_ := {| o_dateTime := start_or_date (g_end event);
                o_timeZone := dict_get (timeZone (g_end event)) (PStr "UTC") |};
     body := match g_description event with
             | Some d => Some {| contentType := PStr "text"; content := d |}
             | None => None
             end;
     location := match g_location event with
                 | Some l => Some {| displayName := l |}
                 | None => None
                 end |}.

(** [event.get('summary', 'No Title')] *)
Definition summary_of (event : gevent) : pyval :=
  dict_get (g_summary event) (PStr "No Title").

Definition payload_of (event : gevent) : o365_event :=
  format_o365_event event (summary_of event).

(** The [needs_update] expression; [||] and [if] short-circuit as [or] and
    [and] do. *)
Definition needs_update (existing_event : existing_event) (event_summary : pyval)
    (o365_event : o365_event) : bool :=
  py_ne (x_subject existing_event) event_summary
  || py_ne (o_dateTime (x_start existing_event)) (o_dateTime (start o365_event))
  || py_ne (o_dateTime (x_end existing_event)) (o_dateTime (end_ o365_event))
  || match location o365_event with
     | Some loc =>
         match x_location existing_event with
         | None => true
         | Some xloc => py_ne (displayName xloc) (displayName loc)
         end
     | None => false
     end.

(** ** The world outside the program *)

(** [google_service.events().list(...)] *)
Record list_request : Type := {
  calendarId : string;
  timeMin : string;
  timeMax : string;
  maxResults : Z;
  singleEvents : bool;
  orderBy : string
}.

(** [session.get(url, params={'$select': ..., '$filter': ...})]; the
    [$filter] text has two holes, kept here as [filter_ge] and [filter_le]
    ([filter_param] is the text that is sent). *)
Record get_request : Type := {
  get_url : string;
  select_ : string;
  filter_ge : string;
  filter_le : string
}.

(** The [$filter] f-string of [get_existing_events]. *)
Definition window_filter (now end_date : string) : string :=
  "start/dateTime ge '" +:+ now +:+ "' and start/dateTime le '" +:+ end_date +:+ "'".

Definition filter_param (req : get_request) : string :=
  window_filter (filter_ge req) (filter_le req).

Inductive http_method : Type := POST | PATCH.

(** [session.post(url, json=...)] and [session.patch(url, json=...)], with
    the [Authorization] header that the session carries at that point. *)
Record request : Type := {
  method : http_method;
  url : string;
  authorization : string;
  json : o365_event
}.

(** A parsed JSON document (the configuration file). *)
#[local] Set Warnings "-register-all".
Inductive json_value : Type :=
| JNull
| JBool (b : bool)
| JNum (n : Z)
| JStr (s : string)
| JArr (items : list json_value)
| JObj (members : list (string * json_value)).

(** The calls that leave the program.  Each one takes the world and gives
    the next one back; a call that can raise returns a [result].
    - [utcnow]: [datetime.utcnow()], in microseconds;
    - [isoformat]: [datetime.isoformat()];
    - [events_list_execute]: the Google list call, giving the ['items'] key
      of the reply when the reply has one;
    - [chrome_access_token]: the browser session that reads [accessToken];
    - [load_cookies]: reading [o365_cookies.json] into the session;
    - [session_get]: the Graph GET, [raise_for_status] and the ['value'] key
      of the decoded reply when it has one;
    - [session_send]: a Graph POST or PATCH and its [raise_for_status];
    - [path_exists], [json_load]: [os.path.exists(config_file)] and
      [open] followed by [json.load]. *)
Class Externals (World : Type) : Type := {
  utcnow : World -> Z * World;
  isoformat : Z -> string;
  events_list_execute : list_request -> World -> result (option (list gevent)) * World;
  chrome_access_token : World -> result pyval * World;
  load_cookies : World -> result unit * World;
  session_get : get_request -> World -> result (option (list existing_event)) * World;
  session_send : request -> World -> result unit * World;
  path_exists : World -> bool * World;
  json_load : World -> result json_value * World
}.

Inductive log_level : Type := INFO | WARNING | ERROR.

(** The state a run threads: the world, the write requests issued so far,
    the log, and the two attributes [load_config] assigns ([None]: unset). *)
Record run_state (World : Type) : Type := {
  world : World;
  sent : list request;
  log : list (log_level * string);
  gmail_email_default : option json_value;
  o365_email_default : option json_value
}.
Arguments world {World} _.
Arguments sent {World} _.
Arguments log {World} _.
Arguments gmail_email_default {World} _.
Arguments o365_email_default {World} _.

Definition initial_state {World : Type} (w : World) : run_state World :=
  {| world := w; sent := []; log := [];
     gmail_email_default := None; o365_email_default := None |}.

(** ** A state and exception monad *)

Definition M (World A : Type) : Type := run_state World -> result A * run_state World.

Section Monad.
Context {World : Type}.

Definition ret {A : Type} (a : A) : M World A := fun st => (Ok a, st).

Definition bind {A B : Type} (c : M World A) (k : A -> M World B) : M World B :=
  fun st =>
    match c st with
    | (Ok a, st') => k a st'
    | (Raise e, st') => (Raise e, st')
    end.

Definition raise {A : Type} (e : exn) : M World A := fun st => (Raise e, st).

(** [try: c  except Exception as e: handler e] *)
Definition try_except {A : Type} (c : M World A) (handler : exn -> M World A) : M World A :=
  fun st =>
    match c st with
    | (Ok a, st') => (Ok a, st')
    | (Raise e, st') => handler e st'
    end.

Definition set_world (w : World) (st : run_state World) : run_state World :=
  {| world := w; sent := sent st; log := log st;
     gmail_email_default := gmail_email_default st;
     o365_email_default := o365_email_default st |}.

(** A call that cannot raise, and one that can. *)
Definition call {A : Type} (f : World -> A * World) : M World A :=
  fun st => let '(a, w) := f (world st) in (Ok a, set_world w st).

Definition call_r {A : Type} (f : World -> result A * World) : M World A :=
  fun st => let '(r, w) := f (world st) in (r, set_world w st).

Definition logger (level : log_level) (msg : string) : M World unit :=
  fun st =>
    (Ok tt, {| world := world st; sent := sent st; log := log st ++ [(level, msg)];
               gmail_email_default := gmail_email_default st;
               o365_email_default := o365_email_default st |}).

Definition record_sent (req : request) : M World unit :=
  fun st =>
    (Ok tt, {| world := world st; sent := sent st ++ [req]; log := log st;
               gmail_email_default := gmail_email_default st;
               o365_email_default := o365_email_default st |}).

Definition set_defaults (gmail o365 : json_value) : M World unit :=
  fun st =>
    (Ok tt, {| world := world st; sent := sent st; log := log st;
               gmail_email_default := Some gmail;
               o365_email_default := Some o365 |}).

End Monad.

Notation "x <- c1 ;; c2" := (bind c1 (fun x => c2))
  (at level 100, c1 at next level, right associativity).
Notation "c1 ;; c2" := (bind c1 (fun _ => c2))
  (at level 100, right associativity).

(** [for x in l: body x] *)
Fixpoint for_each {World A : Type} (l : list A) (body : A -> M World unit) : M World unit :=
  match l with
  | [] => ret tt
  | x :: l' => body x ;; for_each l' body
  end.

(** ** The program *)

(** [timedelta(days=30)], in microseconds. *)
Definition timedelta_days (days : Z) : Z := days * 86400 * 1000000.

Definition events_url : string := "https://graph.microsoft.com/v1.0/me/events".

(** [config.get(key, '')] on the members of a JSON object. *)
Fixpoint members_get (members : list (string * json_value)) (key : string)
    (dflt : json_value) : json_value :=
  match members with
  | [] => dflt
  | (k, v) :: rest => if decide (k = key) then v else members_get rest key dflt
  end.

(** The decision the reconciler takes for one source event. *)
Inductive action : Type :=
| CREATE (payload : o365_event)
| UPDATE (target_id : pyval) (payload : o365_event)
| SKIP.

Definition reconcile (existing_events : gmap string existing_event) (event : gevent)
    : action :=
  let event_key := create_event_key (gview event) true in
  let event_summary := dict_get (g_summary event) (PStr "No Title") in
  let o365_event := format_o365_event event event_summary in
  match existing_events !! event_key with
  | Some existing_event =>
      if needs_update existing_event event_summary o365_event
      then UPDATE (x_id existing_event) o365_event
      else SKIP
  | None => CREATE o365_event
  end.

Definition bearer (token : pyval) : string := "Bearer " +:+ py_str token.

Definition post_request (token : pyval) (o365_event : o365_event) : request :=
  {| method := POST; url := events_url;
     authorization := bearer token; json := o365_event |}.

Definition patch_request (token target_id : pyval) (o365_event : o365_event) : request :=
  {| method := PATCH; url := events_url +:+ "/" +:+ py_str target_id;
     authorization := bearer token; json := o365_event |}.

(** The write calls an action stands for. *)
Definition requests_of (token : pyval) (a : action) : list request :=
  match a with
  | CREATE payload => [post_request token payload]
  | UPDATE target_id payload => [patch_request token target_id payload]
  | SKIP => []
  end.

Section Program.
Context {World : Type} {E : Externals World}.

(** [session.post] / [session.patch] followed by [raise_for_status]. *)
Definition send (req : request) : M World unit :=
  record_sent req ;; call_r (session_send req).

(** [get_existing_events] *)
Definition get_existing_events : M World (gmap string existing_event) :=
  try_except
    (now <- call utcnow ;;
     let end_date := isoformat (now + timedelta_days 30) +:+ "Z" in
     let now := isoformat now +:+ "Z" in
     value <- call_r (session_get
                 {| get_url := events_url;
                    select_ := "id,subject,start,end,body,location";
                    filter_ge := now;
                    filter_le := end_date |}) ;;
     let events_dict :=
       fold_left (fun d event => <[create_event_key (xview event) false := event]> d)
                 (dict_get value []) (∅ : gmap string existing_event) in
     logger INFO ("Retrieved " +:+ pretty (size events_dict) +:+ " existing O365 events") ;;
     ret events_dict)
    (fun e =>
       logger ERROR ("Error retrieving O365 events: " +:+ exn_str e) ;;
       ret ∅).

(** The source read that opens [sync_calendars]. *)
Definition read_source_events : M World (list gevent) :=
  now <- call utcnow ;;
  let end_date := isoformat (now + timedelta_days 30) +:+ "Z" in
  let now := isoformat now +:+ "Z" in
  events_result <- call_r (events_list_execute
                     {| calendarId := "primary";
                        timeMin := now;
                        timeMax := end_date;
                        maxResults := 250;
                        singleEvents := true;
                        orderBy := "startTime" |}) ;;
  ret (dict_get events_result []).

(** The body of the loop of [sync_calendars], for one event. *)
Definition sync_event (token : pyval) (existing_events : gmap string existing_event)
    (event : gevent) : M World unit :=
  let event_key := create_event_key (gview event) true in
  let event_summary := dict_get (g_summary event) (PStr "No Title") in
  let o365_event := format_o365_event event event_summary in
  try_except
    (match existing_events !! event_key with
     | Some existing_event =>
         if needs_update existing_event event_summary o365_event
         then
           send (patch_request token (x_id existing_event) o365_event) ;;
           logger INFO ("Updated existing event: " +:+ py_str event_summary)
         else
           logger INFO ("Event unchanged, no update needed: " +:+ py_str event_summary)
     | None =>
         send (post_request token o365_event) ;;
         logger INFO ("Created new event: " +:+ py_str event_summary)
     end)
    (fun e =>
       logger ERROR ("Failed to sync event " +:+ py_str event_summary +:+ ": "
                     +:+ exn_str e)).

(** [sync_calendars] *)
Definition sync_calendars : M World unit :=
  try_except
    (events <- read_source_events ;;
     match events with
     | [] => logger INFO "No upcoming events found in Google Calendar"
     | _ :: _ =>
         token <- call_r chrome_access_token ;;
         try_except (call_r load_cookies)
           (fun e =>
              match e with
              | FileNotFoundError _ =>
                  logger ERROR "O365 session not found" ;;
                  raise (Exception "O365 session not found. Please authenticate first.")
              | _ => raise e
              end) ;;
         existing_events <- get_existing_events ;;
         for_each events (sync_event token existing_events)
     end)
    (fun e =>
       logger ERROR ("Error during calendar sync: " +:+ exn_str e) ;;
       raise e).

(** [load_config] *)
Definition load_config : M World unit :=
  try_except
    (present <- call path_exists ;;
     if (present : bool) then
       config <- call_r json_load ;;
       match config with
       | JObj members =>
           set_defaults (members_get members "gmail_email" (JStr ""))
                        (members_get members "o365_email" (JStr "")) ;;
           logger INFO "Configuration loaded successfully"
       | _ => raise (Exception "object has no attribute 'get'")
       end
     else
       set_defaults (JStr "") (JStr "") ;;
       logger WARNING "No configuration file found")
    (fun e =>
       match e with
       | JSONDecodeError _ =>
           logger ERROR "Error reading config file" ;;
           set_defaults (JStr "") (JStr "")
       | _ => raise e
       end).

End Program.

(** ** What the statements speak of *)

(** The two texts an event key is made of. *)
Definition event_id_text (event : event_view) : string :=
  py_str (dict_get (ev_id event) (PStr "")).

Definition start_text (event : event_view) : string :=
  py_str (start_or_date (ev_start event)).

(** Whether the text [s] holds an underscore. *)
Fixpoint has_underscore (s : string) : bool :=
  match s with
  | EmptyString => false
  | String c rest => if decide (c = "_"%char) then true else has_underscore rest
  end.

(** The log line of an event whose write raised [e]. *)
Definition failure_entry (event : gevent) (e : exn) : log_level * string :=
  (ERROR, "Failed to sync event " +:+ py_str (summary_of event) +:+ ": " +:+ exn_str e).

(** The plan of a list of events: the writes of each, in order. *)
Definition plan (token : pyval) (existing_events : gmap string existing_event)
    (events : list gevent) : list request :=
  flat_map (fun event => requests_of token (reconcile existing_events event)) events.

(** The destination holds [event] under the key the reconciler computes for
    it, with the same title, start and end [dateTime] and location. *)
Definition reflects (existing_events : gmap string existing_event) (event : gevent)
    : Prop :=
  exists stored,
    existing_events !! create_event_key (gview event) true = Some stored
    /\ x_subject stored = subject (payload_of event)
    /\ o_dateTime (x_start stored) = o_dateTime (start (payload_of event))
    /\ o_dateTime (x_end stored) = o_dateTime (end_ (payload_of event))
    /\ x_location stored = location (payload_of event).

(** A compared field of the payload differs from the stored event: the
    title, the start or end [dateTime], or the location when the payload
    has one. *)
Definition differs (stored : existing_event) (payload : o365_event) : Prop :=
  x_subject stored <> subject payload
  \/ o_dateTime (x_start stored) <> o_dateTime (start payload)
  \/ o_dateTime (x_end stored) <> o_dateTime (end_ payload)
  \/ exists loc, location payload = Some loc
       /\ (x_location stored = None
           \/ exists xloc, x_location stored = Some xloc
                /\ displayName xloc <> displayName loc).

(** [event] with another description, [stored] with another body. *)
Definition set_description (event : gevent) (text : option pyval) : gevent :=
  {| g_id := g_id event; g_summary := g_summary event; g_start := g_start event;
     g_end := g_end event; g_description := text; g_location := g_location event |}.

Definition set_body (stored : existing_event) (b : option o365_body) : existing_event :=
  {| x_id := x_id stored; x_subject := x_subject stored; x_start := x_start stored;
     x_end := x_end stored; x_body := b; x_location := x_location stored |}.


(** The mapping [get_existing_events] builds from the events it received. *)
Definition events_dict_of (value : list existing_event) : gmap string existing_event :=
  fold_left (fun d event => <[create_event_key (xview event) false := event]> d)
            value ∅.

(** What [load_config] leaves in a default for the key [key]. *)
Definition config_default (present : bool) (r : result json_value) (key : string)
    : json_value :=
  if present then
    match r with
    | Ok (JObj members) => members_get members key (JStr "")
    | _ => JStr ""
    end
  else JStr "".

Section Vocabulary.
Context {World : Type} {E : Externals World}.

(** The request [sync_calendars] sends to the source calendar at [now]. *)
Definition source_request (now : Z) : list_request :=
  {| calendarId := "primary";
     timeMin := isoformat now +:+ "Z";
     timeMax := isoformat (now + timedelta_days 30) +:+ "Z";
     maxResults := 250;
     singleEvents := true;
     orderBy := "startTime" |}.

(** The request [get_existing_events] sends to the destination at [now]. *)
Definition existing_request (now : Z) : get_request :=
  {| get_url := events_url;
     select_ := "id,subject,start,end,body,location";
     filter_ge := isoformat now +:+ "Z";
     filter_le := isoformat (now + timedelta_days 30) +:+ "Z" |}.

(** The state with one more line in the log. *)
Definition push_log (entry : log_level * string) (st : run_state World)
    : run_state World :=
  {| world := world st; sent := sent st; log := log st ++ [entry];
     gmail_email_default := gmail_email_default st;
     o365_email_default := o365_email_default st |}.

(** The state after a write request [req] answered by [w]. *)
Definition after_write (req : request) (w : World) (entry : log_level * string)
    (st : run_state World) : run_state World :=
  {| world := w; sent := sent st ++ [req]; log := log st ++ [entry];
     gmail_email_default := gmail_email_default st;
     o365_email_default := o365_email_default st |}.

End Vocabulary.

(** ** A scripted world, to run the program on concrete inputs *)

Module Scripted.

(** Successive clock readings, the source calendar (or the failure of its
    read), the browser and cookie-file outcomes, the destination calendar
    (or the failure of its read), the write requests the destination
    rejects, and the configuration file ([None]: no file). *)
Record world : Type := {
  clock : list Z;
  google : result (list gevent);
  token : result pyval;
  cookies : result unit;
  graph : result (list existing_event);
  reject : request -> option exn;
  config : option (result json_value)
}.

(** Decimal text of [n], padded with zeros to [width] digits. *)
Definition padded (width : nat) (n : Z) : string :=
  let digits := pretty n in
  String.concat "" (replicate (width - String.length digits) "0") +:+ digits.

(** [datetime.isoformat()] of the instant [t] microseconds after
    1970-01-01T00:00:00, by the usual days-to-civil-date computation. *)
Definition iso_text (t : Z) : string :=
  let micro := t mod 1000000 in
  let secs := t / 1000000 in
  let z := secs / 86400 + 719468 in
  let sod := secs mod 86400 in
  let era := z / 146097 in
  let doe := z - era * 146097 in
  let yoe := (doe - doe / 1460 + doe / 36524 - doe / 146096) / 365 in
  let doy := doe - (365 * yoe + yoe / 4 - yoe / 100) in
  let mp := (5 * doy + 2) / 153 in
  let d := doy - (153 * mp + 2) / 5 + 1 in
  let m := if mp <? 10 then mp + 3 else mp - 9 in
  let y := yoe + era * 400 + (if m <=? 2 then 1 else 0) in
  padded 4 y +:+ "-" +:+ padded 2 m +:+ "-" +:+ padded 2 d +:+ "T"
  +:+ padded 2 (sod / 3600) +:+ ":" +:+ padded 2 (sod mod 3600 / 60) +:+ ":"
  +:+ padded 2 (sod mod 60)
  +:+ (if micro =? 0 then "" else "." +:+ padded 6 micro).

(** ISO-8601 texts of one format order as their instants do. *)
Definition within (lo hi : string) (t : pyval) : bool :=
  String.leb lo (py_str t) && String.leb (py_str t) hi.

Definition tick (w : world) : Z * world :=
  match clock w with
  | [] => (0, w)
  | t :: rest =>
      (t, {| clock := rest; google := google w; token := token w;
             cookies := cookies w; graph := graph w; reject := reject w;
             config := config w |})
  end.

(** Both servers return the events that start within the bounds asked for. *)
Definition list_events (req : list_request) (w : world)
    : result (option (list gevent)) * world :=
  match google w with
  | Ok calendar =>
      (Ok (Some (filter (fun ev => within (timeMin req) (timeMax req)
                                          (start_or_date (g_start ev)) = true)
                        calendar)), w)
  | Raise e => (Raise e, w)
  end.

Definition get_events (req : get_request) (w : world)
    : result (option (list existing_event)) * world :=
  match graph w with
  | Ok calendar =>
      (Ok (Some (filter (fun ev => within (filter_ge req) (filter_le req)
                                          (o_dateTime (x_start ev)) = true)
                        calendar)), w)
  | Raise e => (Raise e, w)
  end.

Definition write (req : request) (w : world) : result unit * world :=
  match reject w req with
  | Some e => (Raise e, w)
  | None => (Ok tt, w)
  end.

Definition exists_config (w : world) : bool * world :=
  (match config w with Some _ => true | None => false end, w).

Definition load (w : world) : result json_value * world :=
  match config w with
  | Some r => (r, w)
  | None => (Raise (FileNotFoundError "config.json"), w)
  end.

#[global] Instance externals : Externals world := {|
  utcnow := tick;
  isoformat := iso_text;
  events_list_execute := list_events;
  chrome_access_token := fun w => (token w, w);
  load_cookies := fun w => (cookies w, w);
  session_get := get_events;
  session_send := write;
  path_exists := exists_config;
  json_load := load
|}.

End Scripted.

(** ** Test data: the scenario of the specification *)

Module Example.

Definition at_time (t : string) : time_dict :=
  {| dateTime := Some (PStr t); date := None; timeZone := None |}.

Definition utc (t : string) : o365_time :=
  {| o_dateTime := PStr t; o_timeZone := PStr "UTC" |}.

Definition standup : gevent :=
  {| g_id := Some (PStr "g1");
     g_summary := Some (PStr "Standup");
     g_start := at_time "2024-01-10T09:00Z";
     g_end := at_time "2024-01-10T09:30Z";
     g_description := None;
     g_location := None |}.

(** The destination's copy of [standup], under the destination's own id. *)
Definition standup_copy : existing_event :=
  {| x_id := PStr "AAMkAD";
     x_subject := PStr "Standup";
     x_start := utc "2024-01-10T09:00Z";
     x_end := utc "2024-01-10T09:30Z";
     x_body := None;
     x_location := None |}.

(** A destination mapping that holds [standup_copy] under the key the
    reconciler computes for [standup]. *)
Definition synced : gmap string existing_event :=
  {[ "g1_2024-01-10T09:00Z" := standup_copy ]}.

Definition retitled : gevent :=
  {| g_id := g_id standup; g_summary := Some (PStr "Standup (remote)");
     g_start := g_start standup; g_end := g_end standup;
     g_description := g_description standup; g_location := g_location standup |}.

Definition moved : gevent :=
  {| g_id := g_id standup; g_summary := g_summary standup;
     g_start := at_time "2024-01-10T10:00Z"; g_end := g_end standup;
     g_description := g_description standup; g_location := g_location standup |}.

(** An event whose [start] has neither [dateTime] nor [date]. *)
Definition malformed : gevent :=
  {| g_id := Some (PStr "g2"); g_summary := Some (PStr "Broken");
     g_start := {| dateTime := None; date := None; timeZone := None |};
     g_end := at_time "2024-01-11T10:00Z";
     g_description := None; g_location := None |}.

Definition lunch : gevent :=
  {| g_id := Some (PStr "g3"); g_summary := Some (PStr "Lunch");
     g_start := at_time "2024-01-12T12:00Z";
     g_end := at_time "2024-01-12T13:00Z";
     g_description := Some (PStr "Team lunch"); g_location := Some (PStr "Cafe") |}.



(** The destination's copy of [lunch], whose body is an older text. *)
Definition lunch_copy : existing_event :=
  {| x_id := PStr "AAMkLunch";
     x_subject := PStr "Lunch";
     x_start := utc "2024-01-12T12:00Z";
     x_end := utc "2024-01-12T13:00Z";
     x_body := Some {| contentType := PStr "text"; content := PStr "Old notes" |};
     x_location := Some {| displayName := PStr "Cafe" |} |}.

Definition lunch_synced : gmap string existing_event :=
  {[ "g3_2024-01-12T12:00Z" := lunch_copy ]}.

(** A world where every call succeeds and both calendars are empty. *)
Definition quiet : Scripted.world :=
  {| Scripted.clock := [];
     Scripted.google := Ok [];
     Scripted.token := Ok (PStr "tok");
     Scripted.cookies := Ok tt;
     Scripted.graph := Ok [];
     Scripted.reject := fun _ => None;
     Scripted.config := None |}.

(** A destination that rejects the payload of [malformed]. *)
Definition strict : Scripted.world :=
  {| Scripted.clock := [];
     Scripted.google := Ok [];
     Scripted.token := Ok (PStr "tok");
     Scripted.cookies := Ok tt;
     Scripted.graph := Ok [];
     Scripted.reject := fun req =>
       if decide (o_dateTime (start (json req)) = PNone)
       then Some (Exception "400 Client Error: Bad Request")
       else None;
     Scripted.config := None |}.

(** 2024-01-10T00:00:00, in microseconds. *)
Definition jan10 : Z := 1704844800000000.

(** A run whose destination read fails. *)
Definition offline : Scripted.world :=
  {| Scripted.clock := [jan10; jan10 + 60000000];
     Scripted.google := Ok [standup; lunch];
     Scripted.token := Ok (PStr "tok");
     Scripted.cookies := Ok tt;
     Scripted.graph := Raise (Exception "503 Server Error: Service Unavailable");
     Scripted.reject := fun _ => None;
     Scripted.config := None |}.

(** An event of the destination that starts half a minute after the
    thirty days that follow [jan10]. *)
Definition late : existing_event :=
  {| x_id := PStr "AAMkLate";
     x_subject := PStr "Offsite";
     x_start := utc "2024-02-09T00:00:30Z";
     x_end := utc "2024-02-09T01:00:00Z";
     x_body := None;
     x_location := None |}.

(** A run that reads the clock at [jan10] for the source read and one
    minute later for the destination read. *)
Definition busy : Scripted.world :=
  {| Scripted.clock := [jan10; jan10 + 60000000];
     Scripted.google := Ok [standup; lunch];
     Scripted.token := Ok (PStr "tok");
     Scripted.cookies := Ok tt;
     Scripted.graph := Ok [standup_copy; late];
     Scripted.reject := fun _ => None;
     Scripted.config := None |}.

(** A configuration file that names the Gmail account only. *)
Definition configured : Scripted.world :=
  {| Scripted.clock := [];
     Scripted.google := Ok [];
     Scripted.token := Ok (PStr "tok");
     Scripted.cookies := Ok tt;
     Scripted.graph := Ok [];
     Scripted.reject := fun _ => None;
     Scripted.config := Some (Ok (JObj [("gmail_email", JStr "me@gmail.com")])) |}.

(** A configuration file that exists and cannot be opened. *)
Definition locked : Scripted.world :=
  {| Scripted.clock := [];
     Scripted.google := Ok [];
     Scripted.token := Ok (PStr "tok");
     Scripted.cookies := Ok tt;
     Scripted.graph := Ok [];
     Scripted.reject := fun _ => None;
     Scripted.config := Some (Raise (Exception "[Errno 13] Permission denied")) |}.

End Example.

(** * More of the program *)

(** The key [get_existing_events] stores a destination event under. *)
Definition key_of (event : existing_event) : string :=
  create_event_key (xview event) false.

(** [event] with other time zones in its [start] and [end]. *)
Definition set_time_zones (event : gevent) (start_zone end_zone : option pyval) : gevent :=
  {| g_id := g_id event; g_summary := g_summary event;
     g_start := {| dateTime := dateTime (g_start event); date := date (g_start event);
                   timeZone := start_zone |};
     g_end := {| dateTime := dateTime (g_end event); date := date (g_end event);
                 timeZone := end_zone |};
     g_description := g_description event; g_location := g_location event |}.

(** What a write request of the run may look like: a POST to the events
    collection, or a PATCH to an event of the mapping, with the token. *)
Definition well_addressed (token : pyval) (existing_events : gmap string existing_event)
    (req : request) : Prop :=
  authorization req = "Bearer " +:+ py_str token
  /\ (method req = POST /\ url req = events_url
      \/ method req = PATCH
         /\ exists k stored, existing_events !! k = Some stored
              /\ url req = events_url +:+ "/" +:+ py_str (x_id stored)).

(** * Authentication and the entry points *)

(** [CalendarSync.authenticate_google], [authenticate_o365] and
    [start_sync], over the same state and the same monad.  The calls of the
    form (reading an entry field, setting the status line, showing an error
    dialog) are taken not to raise. *)

(** A Google credentials object, as [authenticate_google] reads it. *)
Record credentials : Type := {
  valid : bool;
  expired : bool;
  refresh_token : pyval
}.

(** Python's truth value of a string or [None]. *)
Definition truthy (v : pyval) : bool :=
  match v with
  | PNone => false
  | PStr s => bool_decide (s <> "")
  end.

(** The exception classes [authenticate_o365] tells apart, in the order of
    its handlers. *)
Inductive selenium_error : Type :=
| TimeoutException (msg : string)
| WebDriverException (msg : string)
| OtherError (e : exn).

Definition selenium_str (e : selenium_error) : string :=
  match e with
  | TimeoutException msg | WebDriverException msg => msg
  | OtherError e => exn_str e
  end.

(** The same exception, for a handler that reads its message only. *)
Definition as_exn (e : selenium_error) : exn :=
  match e with
  | TimeoutException msg | WebDriverException msg => Exception msg
  | OtherError e => e
  end.

Inductive attempt (A : Type) : Type :=
| Done (a : A)
| Failed (e : selenium_error).
Arguments Done {A} a.
Arguments Failed {A} e.

(** The entry fields of the form. *)
Inductive entry : Type := gmail_email | o365_email | o365_password.

(** The calls of the desktop side of the program.
    - [token_exists], [load_token]: [gmail_token.pickle] and [pickle.load];
    - [refresh]: [creds.refresh(Request())], giving the object as it is after;
    - [secrets_exist], [run_flow]: [client_secrets.json] and the installed
      application flow ([from_client_secrets_file], [run_local_server]);
    - [dump_token]: [pickle.dump] into the token file;
    - [build_service]: [build('calendar', 'v3', credentials=creds)];
    - [chrome_start] ... [driver_quit]: the browser session of
      [authenticate_o365], cut where the program reads an entry field;
    - [store_cookies]: [json.dump] into [o365_cookies.json];
    - [entry_get], [status_config], [showerror]: the form. *)
Class Desktop (World : Type) : Type := {
  token_exists : World -> bool * World;
  load_token : World -> result (option credentials) * World;
  refresh : credentials -> World -> result credentials * World;
  secrets_exist : World -> bool * World;
  run_flow : World -> result credentials * World;
  dump_token : credentials -> World -> result unit * World;
  build_service : credentials -> World -> result unit * World;
  chrome_start : World -> attempt unit * World;
  open_login_page : World -> attempt unit * World;
  submit_email : string -> World -> attempt unit * World;
  wait_password : World -> attempt unit * World;
  submit_password : string -> World -> attempt unit * World;
  get_cookies : World -> attempt (list (string * string)) * World;
  store_cookies : list (string * string) -> World -> attempt unit * World;
  driver_quit : World -> attempt unit * World;
  entry_get : entry -> World -> string * World;
  status_config : string -> World -> World;
  showerror : string -> string -> World -> World
}.


Section Entry.
Context {World : Type} {E : Externals World} {D : Desktop World}.

(** A call that changes the world and gives nothing back. *)
Definition call_ (f : World -> World) : M World unit :=
  fun st => (Ok tt, set_world (f (world st)) st).



(** The steps of a browser session, which stop at the first that fails. *)
Definition session (A : Type) : Type :=
  run_state World -> attempt A * run_state World.

Definition step {A : Type} (f : World -> attempt A * World) : session A :=
  fun st => let '(r, w) := f (world st) in (r, set_world w st).

Definition and_then {A B : Type} (c : session A) (k : A -> session B) : session B :=
  fun st =>
    match c st with
    | (Done a, st') => k a st'
    | (Failed e, st') => (Failed e, st')
    end.

Definition read_entry (field : entry) : session string :=
  fun st => let '(text, w) := entry_get field (world st) in (Done text, set_world w st).

Definition note (level : log_level) (msg : string) : session unit :=
  fun st => (Done tt, push_log (level, msg) st).

(** The body of the [try] of [authenticate_o365], after the browser is
    started. *)
Definition o365_login : session unit :=
  and_then (note INFO "Starting O365 authentication") (fun _ =>
  and_then (step open_login_page) (fun _ =>
  and_then (read_entry o365_email) (fun email =>
  and_then (step (submit_email email)) (fun _ =>
  and_then (step wait_password) (fun _ =>
  and_then (read_entry o365_password) (fun password =>
  and_then (step (submit_password password)) (fun _ =>
  and_then (step get_cookies) (fun cookies =>
  step (store_cookies cookies))))))))).

(** The three [except] clauses of [authenticate_o365]. *)
Definition o365_failure (e : selenium_error) : M World bool :=
  match e with
  | TimeoutException _ =>
      logger ERROR "O365 authentication timed out" ;;
      call_ (showerror "Error" "Authentication timed out. Please try again.") ;;
      ret false
  | WebDriverException _ =>
      logger ERROR ("Selenium WebDriver error: " +:+ selenium_str e) ;;
      call_ (showerror "Error" ("Browser automation error: " +:+ selenium_str e)) ;;
      ret false
  | OtherError _ =>
      logger ERROR ("Unexpected error during O365 authentication: "
                    +:+ selenium_str e) ;;
      call_ (showerror "Error" ("O365 authentication failed: " +:+ selenium_str e)) ;;
      ret false
  end.

(** [authenticate_o365]: the [finally] clause quits the browser when it was
    started, and an exception of [driver.quit()] leaves the function. *)
Definition authenticate_o365 : M World bool :=
  fun st =>
    match step chrome_start st with
    | (Failed e, st1) => o365_failure e st1
    | (Done _, st1) =>
        let '(answer, st3) :=
          match o365_login st1 with
          | (Done _, st2) =>
              (logger INFO "O365 authentication successful" ;; ret true) st2
          | (Failed e, st2) => o365_failure e st2
          end in
        match step driver_quit st3 with
        | (Done _, st4) => (answer, st4)
        | (Failed e, st4) => (Raise (as_exn e), st4)
        end
    end.


End Entry.

(** * Properties of the reconciler *)
(** ** Strings *)


Lemma append_cancel_l (s a b : string) : s +:+ a = s +:+ b -> a = b.
Proof.
  induction s as [|c s IH]; simpl; intros H; [exact H|].
  injection H as H. auto.
Qed.



Lemma has_underscore_append (a x : string) : has_underscore (a +:+ "_" +:+ x) = true.
Proof.
  induction a as [|c a IH]; simpl.
  - now destruct (decide ("_"%char = "_"%char)).
  - now destruct (decide (c = "_"%char)).
Qed.

(** A text without underscore is what follows the last underscore. *)
Lemma append_underscore_split_last (a b x y : string) :
  has_underscore x = false -> has_underscore y = false ->
  a +:+ "_" +:+ x = b +:+ "_" +:+ y -> a = b /\ x = y.
Proof.
  revert b. induction a as [|c a IH]; intros [|d b] Hx Hy H; simpl in *.
  - injection H as H. auto.
  - injection H as Hd H. change ("" +:+ x) with x in H.
    rewrite H, has_underscore_append in Hx. discriminate.
  - injection H as Hc H. change ("" +:+ y) with y in H.
    rewrite <- H, has_underscore_append in Hy. discriminate.
  - injection H as Hc H. subst d. destruct (IH b Hx Hy H) as [-> ->]. auto.
Qed.

Lemma py_ne_true (a b : pyval) : py_ne a b = true <-> a <> b.
Proof. unfold py_ne. apply bool_decide_eq_true. Qed.

Lemma py_ne_false (a b : pyval) : py_ne a b = false <-> a = b.
Proof.
  unfold py_ne. rewrite bool_decide_eq_false. split.
  - intros H. destruct (decide (a = b)); [assumption | contradiction].
  - intros -> H. now apply H.
Qed.

Lemma create_event_key_text (event : event_view) (is_google : bool) :
  create_event_key event is_google = event_id_text event +:+ "_" +:+ start_text event.
Proof. unfold create_event_key, event_id_text, start_text. now destruct is_google. Qed.

(** ** Event keys *)




(** ** The outbound payload *)


(** ** Running one event and the loop *)

Section Run.
Context {World : Type} {E : Externals World}.

Ltac run :=
  cbv [sync_event try_except bind send record_sent call_r call logger
       set_world ret raise]; simpl.

Lemma sync_event_skip token existing_events event st :
  reconcile existing_events event = SKIP ->
  sync_event token existing_events event st
  = (Ok tt, push_log (INFO, "Event unchanged, no update needed: "
                            +:+ py_str (summary_of event)) st).
Proof.
  unfold reconcile. run.
  destruct (existing_events !! _) as [existing|]; [|discriminate].
  destruct (needs_update _ _ _); [discriminate|]. reflexivity.
Qed.

(** A write that raises is logged and the event is done. *)
Lemma sync_event_write_fails token existing_events event st req e w :
  requests_of token (reconcile existing_events event) = [req] ->
  session_send req (world st) = (Raise e, w) ->
  sync_event token existing_events event st
  = (Ok tt, after_write req w (failure_entry event e) st).
Proof.
  unfold reconcile. run.
  destruct (existing_events !! _) as [existing|].
  - destruct (needs_update _ _ _); simpl; [|discriminate].
    intros [= <-] Hsend. rewrite Hsend. reflexivity.
  - simpl. intros [= <-] Hsend. rewrite Hsend. reflexivity.
Qed.

(** Whatever the destination answers, one event never raises, issues the
    writes of its action and adds one line to the log. *)
Lemma sync_event_spec token existing_events event st :
  exists st',
    sync_event token existing_events event st = (Ok tt, st')
    /\ sent st' = sent st ++ requests_of token (reconcile existing_events event)
    /\ (exists entry, log st' = log st ++ [entry])
    /\ gmail_email_default st' = gmail_email_default st
    /\ o365_email_default st' = o365_email_default st.
Proof.
  unfold reconcile. run.
  destruct (existing_events !! _) as [existing|].
  - destruct (needs_update _ _ _); simpl.
    + destruct (session_send _ _) as [[[]|e] w]; simpl;
        eexists; (split; [reflexivity|]); simpl; eauto.
    + eexists; (split; [reflexivity|]); simpl; rewrite ?app_nil_r; eauto.
  - simpl. destruct (session_send _ _) as [[[]|e] w]; simpl;
      eexists; (split; [reflexivity|]); simpl; eauto.
Qed.

Lemma sync_loop_spec token existing_events events st :
  exists st',
    for_each events (sync_event token existing_events) st = (Ok tt, st')
    /\ sent st' = sent st ++ plan token existing_events events
    /\ length (log st') = (length (log st) + length events)%nat.
Proof.
  revert st. induction events as [|event events IH]; intros st; simpl.
  - exists st. unfold ret, plan. simpl. rewrite app_nil_r. auto with lia.
  - destruct (sync_event_spec token existing_events event st)
      as (st1 & Hrun & Hsent & [entry Hlog] & _).
    destruct (IH st1) as (st2 & Hloop & Hsent2 & Hlog2).
    exists st2. unfold bind. rewrite Hrun, Hloop. split; [reflexivity|].
    split.
    + rewrite Hsent2, Hsent. unfold plan. simpl. now rewrite app_assoc.
    + rewrite Hlog2, Hlog, length_app. simpl. lia.
Qed.

Lemma for_each_app {A : Type} (l1 l2 : list A) (body : A -> M World unit) st st1 :
  for_each l1 body st = (Ok tt, st1) ->
  for_each (l1 ++ l2) body st = for_each l2 body st1.
Proof.
  revert st. induction l1 as [|x l1 IH]; intros st; simpl.
  - unfold ret. now intros [= ->].
  - unfold bind. destruct (body x st) as [[[]|e] st']; [|discriminate]. apply IH.
Qed.

End Run.

(** ** The reconciler's decision *)

Lemma needs_update_differs (stored : existing_event) (payload : o365_event) :
  needs_update stored (subject payload) payload = true <-> differs stored payload.
Proof.
  unfold needs_update, differs.
  rewrite !orb_true_iff, !py_ne_true. split.
  - intros [[[H | H] | H] | H]; auto.
    destruct (location payload) as [loc|]; [|discriminate].
    do 3 right. exists loc. split; [reflexivity|].
    destruct (x_location stored) as [xloc|]; [|auto].
    right. exists xloc. split; [reflexivity|]. now apply py_ne_true.
  - intros [H | [H | [H | (loc & Hloc & H)]]]; auto.
    right. rewrite Hloc. destruct H as [-> | (xloc & -> & H)]; [reflexivity|].
    now apply py_ne_true.
Qed.

Lemma needs_update_same (stored : existing_event) (payload : o365_event) :
  needs_update stored (subject payload) payload = false <-> ~ differs stored payload.
Proof.
  rewrite <- needs_update_differs.
  destruct (needs_update _ _ _); split; intros H;
    first [ discriminate | reflexivity | (intros H'; discriminate)
          | (exfalso; apply H; reflexivity) ].
Qed.

Lemma reconcile_found existing_events event stored :
  existing_events !! create_event_key (gview event) true = Some stored ->
  reconcile existing_events event
  = if needs_update stored (subject (payload_of event)) (payload_of event)
    then UPDATE (x_id stored) (payload_of event)
    else SKIP.
Proof. unfold reconcile. intros ->. reflexivity. Qed.

Lemma reconcile_missing existing_events event :
  existing_events !! create_event_key (gview event) true = None ->
  reconcile existing_events event = CREATE (payload_of event).
Proof. unfold reconcile. intros ->. reflexivity. Qed.

Lemma reflects_skip existing_events event :
  reflects existing_events event -> reconcile existing_events event = SKIP.
Proof.
  intros (stored & Hkey & Hsub & Hstart & Hend & Hloc).
  rewrite (reconcile_found _ _ _ Hkey).
  assert (Hsame : ~ differs stored (payload_of event)).
  { intros [H | [H | [H | (loc & Hl & H)]]]; try contradiction.
    rewrite Hloc, Hl in H. destruct H as [H | (xloc & [= <-] & H)];
      [discriminate | contradiction]. }
  apply needs_update_same in Hsame. now rewrite Hsame.
Qed.

(** C1.  When the destination already reflects every source event, a run of
    the reconciler decides SKIP for each of them and issues no POST and no
    PATCH. *)
Theorem idempotence {World : Type} {E : Externals World} (token : pyval)
    (existing_events : gmap string existing_event) (events : list gevent)
    (st : run_state World) :
  Forall (reflects existing_events) events ->
  Forall (fun event => reconcile existing_events event = SKIP) events
  /\ exists st',
       for_each events (sync_event token existing_events) st = (Ok tt, st')
       /\ sent st' = sent st.
Proof.
  intros Hall.
  assert (Hskip : Forall (fun event => reconcile existing_events event = SKIP) events).
  { eapply Forall_impl; [exact Hall|]. intros event. apply reflects_skip. }
  split; [exact Hskip|].
  destruct (sync_loop_spec token existing_events events st) as (st' & Hrun & Hsent & _).
  exists st'. split; [exact Hrun|]. rewrite Hsent.
  assert (Hplan : plan token existing_events events = []).
  { clear -Hskip. induction Hskip as [|event events Hev _ IH]; [reflexivity|].
    unfold plan in *. simpl. now rewrite Hev, IH. }
  rewrite Hplan. apply app_nil_r.
Qed.

Lemma idempotence_witness :
  Forall (fun event => reconcile Example.synced event = SKIP) [Example.standup]
  /\ exists st',
       for_each [Example.standup] (sync_event (PStr "tok") Example.synced)
                (initial_state Example.quiet) = (Ok tt, st')
       /\ sent st' = sent (initial_state Example.quiet).
Proof.
  apply (idempotence (PStr "tok") Example.synced [Example.standup]
                     (initial_state Example.quiet)).
  constructor; [|constructor].
  exists Example.standup_copy. repeat split; reflexivity.
Defined.

(** C2 (as amended).  An event whose key is absent from the destination is
    a CREATE.  One whose key is present is an UPDATE addressed to the stored
    event's id exactly when a compared field differs, and a SKIP otherwise.
    For an edited version of the event with the same id and start text the
    same stored event decides: one PATCH carrying the new payload when a
    compared field differs, no write otherwise.  An edit of the start text
    gives another key. *)
Theorem decision_rule (token : pyval) (existing_events : gmap string existing_event)
    (event : gevent) :
  match existing_events !! create_event_key (gview event) true with
  | None => reconcile existing_events event = CREATE (payload_of event)
  | Some stored =>
      (differs stored (payload_of event)
       /\ reconcile existing_events event = UPDATE (x_id stored) (payload_of event)
       \/ ~ differs stored (payload_of event)
          /\ reconcile existing_events event = SKIP)
      /\ forall changed : gevent,
           event_id_text (gview changed) = event_id_text (gview event) ->
           (start_text (gview changed) = start_text (gview event) ->
            differs stored (payload_of changed)
            /\ plan token existing_events [changed]
               = [patch_request token (x_id stored) (payload_of changed)]
            \/ ~ differs stored (payload_of changed)
               /\ plan token existing_events [changed] = [])
           /\ (start_text (gview changed) <> start_text (gview event) ->
               create_event_key (gview changed) true
               <> create_event_key (gview event) true)
  end.
Proof.
  assert (Hrule : forall ev stored,
    existing_events !! create_event_key (gview ev) true = Some stored ->
    differs stored (payload_of ev)
    /\ reconcile existing_events ev = UPDATE (x_id stored) (payload_of ev)
    \/ ~ differs stored (payload_of ev) /\ reconcile existing_events ev = SKIP).
  { intros ev stored Hkey. rewrite (reconcile_found _ _ _ Hkey).
    destruct (needs_update stored _ _) eqn:Hneed.
    - left. split; [now apply needs_update_differs | reflexivity].
    - right. split; [now apply needs_update_same | reflexivity]. }
  destruct (existing_events !! create_event_key (gview event) true)
    as [stored|] eqn:Hkey.
  - split; [now apply Hrule|].
    intros changed Hid. split.
    + intros Hstart.
      assert (Hsame : create_event_key (gview changed) true
                      = create_event_key (gview event) true).
      { rewrite !create_event_key_text. now rewrite Hid, Hstart. }
      rewrite <- Hsame in Hkey.
      destruct (Hrule changed stored Hkey) as [[Hd Hr] | [Hd Hr]];
        [left | right]; (split; [exact Hd|]);
        unfold plan; simpl; rewrite Hr; reflexivity.
    + intros Hstart. rewrite !create_event_key_text, Hid.
      intros Heq. apply append_cancel_l in Heq. injection Heq as Heq. contradiction.
  - now apply reconcile_missing.
Qed.

(** C2 (as stated) fails: the destination holds the event, in sync; the
    source moves its start; the run decides a CREATE, not an UPDATE. *)
Lemma moved_start_creates :
  Example.synced !! create_event_key (gview Example.standup) true
    = Some Example.standup_copy
  /\ reconcile Example.synced Example.standup = SKIP
  /\ g_id Example.moved = g_id Example.standup
  /\ start_or_date (g_start Example.moved) <> start_or_date (g_start Example.standup)
  /\ reconcile Example.synced Example.moved = CREATE (payload_of Example.moved).
Proof. repeat split; vm_compute; discriminate. Qed.

(** C10.  With the title, the start and end [dateTime] and the location (when
    the payload has one) equal to the stored event's, the decision is SKIP
    and nothing is written, whatever the description and the stored body:
    [needs_update] reads neither. *)
Theorem description_ignored (token : pyval)
    (existing_events : gmap string existing_event) (event : gevent)
    (stored : existing_event) (text : option pyval) (b : option o365_body) :
  existing_events !! create_event_key (gview event) true = Some stored ->
  ~ differs stored (payload_of event) ->
  let key := create_event_key (gview event) true in
  reconcile (<[key := set_body stored b]> existing_events) (set_description event text)
    = SKIP
  /\ plan token (<[key := set_body stored b]> existing_events)
          [set_description event text] = []
  /\ needs_update (set_body stored b) (summary_of (set_description event text))
                  (payload_of (set_description event text))
     = needs_update stored (summary_of event) (payload_of event).
Proof.
  intros Hkey Hsame key.
  assert (Hneed : needs_update (set_body stored b)
                    (summary_of (set_description event text))
                    (payload_of (set_description event text))
                  = needs_update stored (summary_of event) (payload_of event))
    by reflexivity.
  assert (Hskip : reconcile (<[key := set_body stored b]> existing_events)
                            (set_description event text) = SKIP).
  { rewrite (reconcile_found _ _ (set_body stored b)).
    - change (subject (payload_of (set_description event text)))
        with (summary_of (set_description event text)).
      rewrite Hneed. apply needs_update_same in Hsame.
      change (subject (payload_of event)) with (summary_of event) in Hsame.
      now rewrite Hsame.
    - change (create_event_key (gview (set_description event text)) true) with key.
      apply lookup_insert_eq. }
  split; [exact Hskip|]. split; [|exact Hneed].
  unfold plan. simpl. now rewrite Hskip.
Qed.

Lemma description_ignored_witness :
  reconcile (<["g3_2024-01-12T12:00Z" := set_body Example.lunch_copy None]>
               Example.lunch_synced)
            (set_description Example.lunch (Some (PStr "New agenda"))) = SKIP
  /\ plan (PStr "tok")
          (<["g3_2024-01-12T12:00Z" := set_body Example.lunch_copy None]>
             Example.lunch_synced)
          [set_description Example.lunch (Some (PStr "New agenda"))] = []
  /\ needs_update (set_body Example.lunch_copy None)
                  (summary_of (set_description Example.lunch (Some (PStr "New agenda"))))
                  (payload_of (set_description Example.lunch (Some (PStr "New agenda"))))
     = needs_update Example.lunch_copy (summary_of Example.lunch)
                    (payload_of Example.lunch).
Proof.
  apply (description_ignored (PStr "tok") Example.lunch_synced Example.lunch
           Example.lunch_copy (Some (PStr "New agenda")) None).
  - reflexivity.
  - apply needs_update_same. reflexivity.
Defined.

(** ** Failures inside the loop *)


(** C7.  When the write of one event raises, the event ends normally with
    the failure in the log, and the run goes on: every later event is
    processed and its writes are issued, one call for each event that has
    one. *)
Theorem write_failure_isolation {World : Type} {E : Externals World} (token : pyval)
    (existing_events : gmap string existing_event)
    (before : list gevent) (event : gevent) (after : list gevent)
    (st st1 : run_state World) (req : request) (e : exn) (w : World) :
  for_each before (sync_event token existing_events) st = (Ok tt, st1) ->
  requests_of token (reconcile existing_events event) = [req] ->
  session_send req (world st1) = (Raise e, w) ->
  sync_event token existing_events event st1
    = (Ok tt, after_write req w (failure_entry event e) st1)
  /\ exists st3,
       for_each (before ++ event :: after) (sync_event token existing_events) st
         = (Ok tt, st3)
       /\ sent st3 = sent st1 ++ [req] ++ plan token existing_events after
       /\ length (log st3) = (length (log st1) + 1 + length after)%nat.
Proof.
  intros Hbefore Hreq Hsend.
  pose proof (sync_event_write_fails token existing_events event st1 req e w Hreq Hsend)
    as Hevent.
  split; [exact Hevent|].
  destruct (sync_loop_spec token existing_events after
              (after_write req w (failure_entry event e) st1))
    as (st3 & Hafter & Hsent & Hlog).
  exists st3. split.
  - rewrite (for_each_app before (event :: after) _ st st1 Hbefore).
    simpl. unfold bind. rewrite Hevent. exact Hafter.
  - split.
    + rewrite Hsent. simpl. now rewrite <- app_assoc.
    + rewrite Hlog. simpl. rewrite length_app. simpl. lia.
Qed.

Lemma write_failure_isolation_witness :
  sync_event (PStr "tok") Example.synced Example.malformed
             (push_log (INFO, "Event unchanged, no update needed: Standup")
                       (initial_state Example.strict))
    = (Ok tt,
       after_write (post_request (PStr "tok") (payload_of Example.malformed))
         Example.strict
         (failure_entry Example.malformed (Exception "400 Client Error: Bad Request"))
         (push_log (INFO, "Event unchanged, no update needed: Standup")
                   (initial_state Example.strict)))
  /\ exists st3,
       for_each ([Example.standup] ++ Example.malformed :: [Example.lunch])
                (sync_event (PStr "tok") Example.synced)
                (initial_state Example.strict) = (Ok tt, st3)
       /\ sent st3
          = sent (push_log (INFO, "Event unchanged, no update needed: Standup")
                           (initial_state Example.strict))
            ++ [post_request (PStr "tok") (payload_of Example.malformed)]
            ++ plan (PStr "tok") Example.synced [Example.lunch]
       /\ length (log st3)
          = (length (log (push_log (INFO, "Event unchanged, no update needed: Standup")
                                   (initial_state Example.strict)))
             + 1 + length [Example.lunch])%nat.
Proof.
  apply (write_failure_isolation (PStr "tok") Example.synced
           [Example.standup] Example.malformed [Example.lunch]
           (initial_state Example.strict)
           (push_log (INFO, "Event unchanged, no update needed: Standup")
                     (initial_state Example.strict))
           (post_request (PStr "tok") (payload_of Example.malformed))
           (Exception "400 Client Error: Bad Request") Example.strict);
    reflexivity.
Defined.




(** ** The two reads *)

Section Reads.
Context {World : Type} {E : Externals World}.

Lemma read_source_events_run st now w1 r w2 :
  utcnow (world st) = (now, w1) ->
  events_list_execute (source_request now) w1 = (r, w2) ->
  read_source_events st
  = (match r with Ok items => Ok (dict_get items []) | Raise e => Raise e end,
     set_world w2 st).
Proof.
  intros Hnow Hlist.
  cbv [read_source_events bind call call_r ret set_world]. simpl.
  rewrite Hnow. simpl. fold (source_request now). rewrite Hlist.
  destruct r; reflexivity.
Qed.

Lemma get_existing_events_run st now w1 r w2 :
  utcnow (world st) = (now, w1) ->
  session_get (existing_request now) w1 = (r, w2) ->
  get_existing_events st
  = match r with
    | Ok value =>
        (Ok (events_dict_of (dict_get value [])),
         push_log (INFO, "Retrieved "
                         +:+ pretty (size (events_dict_of (dict_get value [])))
                         +:+ " existing O365 events") (set_world w2 st))
    | Raise e =>
        (Ok ∅, push_log (ERROR, "Error retrieving O365 events: " +:+ exn_str e)
                        (set_world w2 st))
    end.
Proof.
  intros Hnow Hget.
  cbv [get_existing_events try_except bind call call_r ret logger set_world push_log].
  simpl. rewrite Hnow. simpl. fold (existing_request now). rewrite Hget.
  destruct r; reflexivity.
Qed.

(** The destination read never raises. *)
Lemma get_existing_events_total st :
  exists d st', get_existing_events st = (Ok d, st').
Proof.
  destruct (utcnow (world st)) as [now w1] eqn:Hnow.
  destruct (session_get (existing_request now) w1) as [r w2] eqn:Hget.
  rewrite (get_existing_events_run st now w1 r w2 Hnow Hget).
  destruct r; eauto.
Qed.

Lemma plan_empty token (events : list gevent) :
  plan token ∅ events = map (fun event => post_request token (payload_of event)) events.
Proof.
  induction events as [|event events IH]; [reflexivity|].
  unfold plan in *. simpl. rewrite IH.
  rewrite (reconcile_missing ∅ event); [reflexivity | apply lookup_empty].
Qed.

End Reads.

(** C5.  When the destination read fails, [get_existing_events] returns the
    empty mapping and does not raise; the run then decides CREATE for every
    source event, issues one POST for each, and ends without raising. *)
Theorem destination_read_failure {World : Type} {E : Externals World}
    (st : run_state World) (now : Z) (w1 : World) (events : list gevent)
    (w2 : World) (token : pyval) (w3 w4 : World) (now' : Z) (w5 : World)
    (e : exn) (w6 : World) :
  utcnow (world st) = (now, w1) ->
  events_list_execute (source_request now) w1 = (Ok (Some events), w2) ->
  events <> [] ->
  chrome_access_token w2 = (Ok token, w3) ->
  load_cookies w3 = (Ok tt, w4) ->
  utcnow w4 = (now', w5) ->
  session_get (existing_request now') w5 = (Raise e, w6) ->
  fst (get_existing_events (set_world w4 st)) = Ok ∅
  /\ Forall (fun event => reconcile ∅ event = CREATE (payload_of event)) events
  /\ exists st',
       sync_calendars st = (Ok tt, st')
       /\ sent st' = sent st
                     ++ map (fun event => post_request token (payload_of event)) events.
Proof.
  intros Hnow Hlist Hevents Htoken Hcookies Hnow' Hget.
  assert (Hread : forall s, world s = w4 ->
            get_existing_events s
            = (Ok ∅, push_log (ERROR, "Error retrieving O365 events: " +:+ exn_str e)
                              (set_world w6 s))).
  { intros s Hs. apply (get_existing_events_run s now' w5 (Raise e) w6); [|exact Hget].
    now rewrite Hs. }
  split; [now rewrite Hread|].
  split.
  { apply Forall_forall. intros event _. apply reconcile_missing, lookup_empty. }
  unfold sync_calendars.
  cbv [try_except bind].
  rewrite (read_source_events_run st now w1 _ w2 Hnow Hlist). simpl.
  destruct events as [|event events]; [contradiction|].
  cbv [call_r]. simpl. rewrite Htoken. simpl. rewrite Hcookies.
  rewrite Hread by reflexivity.
  change (sync_event token ∅ event;; for_each events (sync_event token ∅))
    with (for_each (event :: events) (sync_event token ∅)).
  match goal with
  | |- context [for_each ?l ?body ?s] =>
      destruct (sync_loop_spec token ∅ l s) as (st' & Hrun & Hsent & _)
  end.
  rewrite Hrun. exists st'. split; [reflexivity|].
  rewrite Hsent, plan_empty. reflexivity.
Qed.

Lemma destination_read_failure_witness :
  fst (get_existing_events (set_world (snd (Scripted.tick Example.offline))
                                      (initial_state Example.offline)))
    = Ok ∅
  /\ Forall (fun event => reconcile ∅ event = CREATE (payload_of event))
            [Example.standup; Example.lunch]
  /\ exists st',
       sync_calendars (initial_state Example.offline) = (Ok tt, st')
       /\ sent st' = sent (initial_state Example.offline)
                     ++ map (fun event => post_request (PStr "tok") (payload_of event))
                            [Example.standup; Example.lunch].
Proof.
  pose (w1 := snd (utcnow Example.offline)).
  pose (w5 := snd (utcnow w1)).
  apply (destination_read_failure (initial_state Example.offline)
           Example.jan10 w1 [Example.standup; Example.lunch] w1 (PStr "tok") w1 w1
           (Example.jan10 + 60000000) w5
           (Exception "503 Server Error: Service Unavailable") w5);
    [reflexivity | vm_compute; reflexivity | discriminate
    | reflexivity | reflexivity | reflexivity | reflexivity].
Defined.

(** ** Configuration *)

(** C9 (as amended).  When the configuration file is absent, or is present
    and fails to parse as JSON, loading completes and both defaults are the
    empty string; when it parses to a JSON object, each default is the value
    of its key, or the empty string when the key is absent. *)
Theorem configuration_fallback {World : Type} {E : Externals World}
    (st : run_state World) (present : bool) (w1 : World)
    (r : result json_value) (w2 : World) :
  path_exists (world st) = (present, w1) ->
  json_load w1 = (r, w2) ->
  present = false
  \/ (exists msg, r = Raise (JSONDecodeError msg))
  \/ (exists members, r = Ok (JObj members)) ->
  exists st',
    load_config st = (Ok tt, st')
    /\ gmail_email_default st' = Some (config_default present r "gmail_email")
    /\ o365_email_default st' = Some (config_default present r "o365_email").
Proof.
  intros Hexists Hload Hcase.
  cbv [load_config try_except bind call call_r set_defaults logger set_world raise].
  simpl. rewrite Hexists. simpl.
  destruct present.
  - simpl. rewrite Hload.
    destruct Hcase as [Hf | [[msg ->] | [members ->]]]; [discriminate | |];
      simpl; eexists; repeat split.
  - simpl. eexists; repeat split.
Qed.

Lemma configuration_fallback_witness :
  exists st',
    load_config (initial_state Example.configured) = (Ok tt, st')
    /\ gmail_email_default st' = Some (JStr "me@gmail.com")
    /\ o365_email_default st' = Some (JStr "").
Proof.
  apply (configuration_fallback (initial_state Example.configured) true
           Example.configured
           (Ok (JObj [("gmail_email", JStr "me@gmail.com")])) Example.configured);
    [reflexivity | reflexivity |].
  right. right. eexists. reflexivity.
Defined.

(** C9 (as stated) fails: a file that exists and cannot be read makes
    [load_config] raise, and no default is set. *)
Lemma unreadable_config_raises :
  fst (load_config (initial_state Example.locked))
    = Raise (Exception "[Errno 13] Permission denied")
  /\ gmail_email_default (snd (load_config (initial_state Example.locked))) = None
  /\ o365_email_default (snd (load_config (initial_state Example.locked))) = None.
Proof. repeat split. Qed.

(** ** The window *)

Lemma events_dict_of_Forall (P : existing_event -> Prop) (value : list existing_event) :
  Forall P value -> map_Forall (fun _ event => P event) (events_dict_of value).
Proof.
  unfold events_dict_of.
  assert (Hgen : forall (d : gmap string existing_event),
            map_Forall (fun _ event => P event) d -> Forall P value ->
            map_Forall (fun _ event => P event)
              (fold_left (fun d event => <[create_event_key (xview event) false := event]> d)
                         value d)).
  { induction value as [|event value IH]; intros d Hd Hall; simpl; [exact Hd|].
    inversion Hall as [|? ? Hev Hrest]; subst.
    apply IH; [|exact Hrest]. now apply map_Forall_insert_2. }
  apply Hgen. apply map_Forall_empty.
Qed.

(** C8 (as amended).  Each reader asks for the thirty days that follow its
    own reading of the clock and adds nothing to the reply: when the
    services return only events that start within the bounds they were
    asked for, the source list holds only events that start within the
    window of the source read, and the destination mapping only events that
    start within the window of the destination read. *)
Theorem window_filtering {World : Type} {E : Externals World}
    (source_within : string -> string -> gevent -> Prop)
    (target_within : string -> string -> existing_event -> Prop)
    (st : run_state World) (now : Z) (w1 : World) :
  (forall req w items w',
     events_list_execute req w = (Ok (Some items), w') ->
     Forall (source_within (timeMin req) (timeMax req)) items) ->
  (forall req w value w',
     session_get req w = (Ok (Some value), w') ->
     Forall (target_within (filter_ge req) (filter_le req)) value) ->
  utcnow (world st) = (now, w1) ->
  (forall events st',
     read_source_events st = (Ok events, st') ->
     Forall (source_within (isoformat now +:+ "Z")
                           (isoformat (now + timedelta_days 30) +:+ "Z")) events)
  /\ (forall existing_events st',
        get_existing_events st = (Ok existing_events, st') ->
        map_Forall (fun _ event =>
                      target_within (isoformat now +:+ "Z")
                                    (isoformat (now + timedelta_days 30) +:+ "Z") event)
                   existing_events).
Proof.
  intros Hsource Htarget Hnow. split.
  - intros events st' Hrun.
    destruct (events_list_execute (source_request now) w1) as [r w2] eqn:Hlist.
    rewrite (read_source_events_run st now w1 r w2 Hnow Hlist) in Hrun.
    destruct r as [[items|]|e]; [| |discriminate].
    + injection Hrun as <- _. simpl. exact (Hsource _ _ _ _ Hlist).
    + injection Hrun as <- _. constructor.
  - intros existing_events st' Hrun.
    destruct (session_get (existing_request now) w1) as [r w2] eqn:Hget.
    rewrite (get_existing_events_run st now w1 r w2 Hnow Hget) in Hrun.
    destruct r as [[value|]|e]; injection Hrun as <- _.
    + simpl. apply events_dict_of_Forall. exact (Htarget _ _ _ _ Hget).
    + apply map_Forall_empty.
    + apply map_Forall_empty.
Qed.

Lemma list_events_honest (req : list_request) (w : Scripted.world)
    (items : list gevent) (w' : Scripted.world) :
  Scripted.list_events req w = (Ok (Some items), w') ->
  Forall (fun ev => Scripted.within (timeMin req) (timeMax req)
                      (start_or_date (g_start ev)) = true) items.
Proof.
  unfold Scripted.list_events. destruct (Scripted.google w); [|discriminate].
  intros [= <- _]. apply Forall_forall. intros ev Hin.
  apply list_elem_of_filter in Hin. tauto.
Qed.

Lemma get_events_honest (req : get_request) (w : Scripted.world)
    (value : list existing_event) (w' : Scripted.world) :
  Scripted.get_events req w = (Ok (Some value), w') ->
  Forall (fun ev => Scripted.within (filter_ge req) (filter_le req)
                      (o_dateTime (x_start ev)) = true) value.
Proof.
  unfold Scripted.get_events. destruct (Scripted.graph w); [|discriminate].
  intros [= <- _]. apply Forall_forall. intros ev Hin.
  apply list_elem_of_filter in Hin. tauto.
Qed.

Lemma window_filtering_witness :
  (forall events st',
     read_source_events (initial_state Example.busy) = (Ok events, st') ->
     Forall (fun ev => Scripted.within
                         (Scripted.iso_text Example.jan10 +:+ "Z")
                         (Scripted.iso_text (Example.jan10 + timedelta_days 30) +:+ "Z")
                         (start_or_date (g_start ev)) = true) events)
  /\ (forall existing_events st',
        get_existing_events (initial_state Example.busy) = (Ok existing_events, st') ->
        map_Forall (fun _ ev =>
                      Scripted.within
                        (Scripted.iso_text Example.jan10 +:+ "Z")
                        (Scripted.iso_text (Example.jan10 + timedelta_days 30) +:+ "Z")
                        (o_dateTime (x_start ev)) = true) existing_events).
Proof.
  apply (@window_filtering Scripted.world Scripted.externals
           (fun lo hi ev => Scripted.within lo hi (start_or_date (g_start ev)) = true)
           (fun lo hi ev => Scripted.within lo hi (o_dateTime (x_start ev)) = true)
           (initial_state Example.busy) Example.jan10
           (snd (Scripted.tick Example.busy))).
  - exact list_events_honest.
  - exact get_events_honest.
  - reflexivity.
Defined.

(** C8 (as stated) fails for the destination read: it reads the clock again,
    one minute after the start of the run here, and its mapping holds an
    event that starts after the window computed at the start of the run,
    within the window the destination was asked for. *)
Lemma later_clock_admits_event :
  fst (read_source_events (initial_state Example.busy))
    = Ok [Example.standup; Example.lunch]
  /\ match fst (get_existing_events
                  (snd (read_source_events (initial_state Example.busy)))) with
     | Ok existing_events =>
         existing_events !! "AAMkLate_2024-02-09T00:00:30Z" = Some Example.late
     | Raise _ => False
     end
  /\ Scripted.within (Scripted.iso_text Example.jan10 +:+ "Z")
                     (Scripted.iso_text (Example.jan10 + timedelta_days 30) +:+ "Z")
                     (o_dateTime (x_start Example.late)) = false
  /\ Scripted.within
       (Scripted.iso_text (Example.jan10 + 60000000) +:+ "Z")
       (Scripted.iso_text (Example.jan10 + 60000000 + timedelta_days 30) +:+ "Z")
       (o_dateTime (x_start Example.late)) = true.
Proof. repeat split; vm_compute; reflexivity. Qed.

(** ** The scenario of the specification, run *)

Example scenario_first_run :
  reconcile ∅ Example.standup
  = CREATE {| subject := PStr "Standup";
              start := Example.utc "2024-01-10T09:00Z";
              end_ := Example.utc "2024-01-10T09:30Z";
              body := None; location := None |}.
Proof. reflexivity. Qed.

Example scenario_second_run : reconcile Example.synced Example.standup = SKIP.
Proof. reflexivity. Qed.

Example scenario_third_run :
  plan (PStr "tok") Example.synced [Example.retitled]
  = [patch_request (PStr "tok") (PStr "AAMkAD") (payload_of Example.retitled)].
Proof. reflexivity. Qed.

Example iso_text_jan10 :
  Scripted.iso_text Example.jan10 = "2024-01-10T00:00:00"
  /\ Scripted.iso_text (Example.jan10 + timedelta_days 30) = "2024-02-09T00:00:00"
  /\ Scripted.iso_text (Example.jan10 + 5) = "2024-01-10T00:00:00.000005".
Proof. repeat split; vm_compute; reflexivity. Qed.

(** * Properties of the run *)

(** ** The mapping of the destination's events *)

Lemma key_of_text (event : existing_event) :
  key_of event = py_str (x_id event) +:+ "_" +:+ py_str (o_dateTime (x_start event)).
Proof. reflexivity. Qed.

Lemma fold_insert_keyed (value : list existing_event) (d : gmap string existing_event) :
  map_Forall (fun k ev => k = key_of ev) d ->
  map_Forall (fun k ev => k = key_of ev)
    (fold_left (fun d event => <[create_event_key (xview event) false := event]> d)
               value d).
Proof.
  revert d. induction value as [|event value IH]; intros d Hd; simpl; [exact Hd|].
  apply IH. apply map_Forall_insert_2; [reflexivity | exact Hd].
Qed.

Lemma fold_insert_size (value : list existing_event) (d : gmap string existing_event) :
  (size (fold_left (fun d event => <[create_event_key (xview event) false := event]> d)
                   value d) <= size d + length value)%nat.
Proof.
  revert d. induction value as [|event value IH]; intros d; simpl; [lia|].
  etransitivity; [apply IH|].
  destruct (d !! create_event_key (xview event) false) as [old|] eqn:Hk.
  - rewrite map_size_insert_Some by eauto. lia.
  - rewrite map_size_insert_None by exact Hk. lia.
Qed.

Lemma events_dict_of_keyed (value : list existing_event) :
  map_Forall (fun k ev => k = key_of ev) (events_dict_of value).
Proof. apply fold_insert_keyed, map_Forall_empty. Qed.

Lemma events_dict_of_from (value : list existing_event) :
  map_Forall (fun _ ev => In ev value) (events_dict_of value).
Proof. apply events_dict_of_Forall. apply Forall_forall. intros ev Hin.
  now apply list_elem_of_In. Qed.

(** X1.  Every entry of the mapping [get_existing_events] returns is an
    event of the reply, stored under the key computed from its own id and
    start [dateTime]; the mapping has at most as many entries as the reply
    has events. *)
Theorem existing_events_keyed {World : Type} {E : Externals World}
    (st : run_state World) (now : Z) (w1 : World)
    (value : option (list existing_event)) (w2 : World) :
  utcnow (world st) = (now, w1) ->
  session_get (existing_request now) w1 = (Ok value, w2) ->
  exists existing_events st',
    get_existing_events st = (Ok existing_events, st')
    /\ map_Forall (fun k ev =>
                     k = py_str (x_id ev) +:+ "_" +:+ py_str (o_dateTime (x_start ev))
                     /\ In ev (dict_get value []))
                  existing_events
    /\ (size existing_events <= length (dict_get value []))%nat.
Proof.
  intros Hnow Hget.
  rewrite (get_existing_events_run st now w1 (Ok value) w2 Hnow Hget).
  eexists. eexists. split; [reflexivity|]. split.
  - intros k ev Hk. split.
    + rewrite <- key_of_text. exact (events_dict_of_keyed _ k ev Hk).
    + exact (events_dict_of_from _ k ev Hk).
  - unfold events_dict_of.
    etransitivity; [apply fold_insert_size|]. rewrite map_size_empty. lia.
Qed.

(** X2.  The destination gives its events ids of its own: when no event of
    the reply carries the id of a source event, and no start text holds an
    underscore, the key of the source event is absent from the mapping built
    from the reply and the reconciler decides CREATE. *)
Theorem unmatched_id_creates (value : list existing_event) (event : gevent) :
  has_underscore (start_text (gview event)) = false ->
  Forall (fun ev => has_underscore (py_str (o_dateTime (x_start ev))) = false) value ->
  Forall (fun ev => py_str (x_id ev) <> event_id_text (gview event)) value ->
  events_dict_of value !! create_event_key (gview event) true = None
  /\ reconcile (events_dict_of value) event = CREATE (payload_of event).
Proof.
  intros Hstart Hstarts Hids.
  assert (Hnone : events_dict_of value !! create_event_key (gview event) true = None).
  { destruct (events_dict_of value !! create_event_key (gview event) true)
      as [stored|] eqn:Hk; [|reflexivity]. exfalso.
    pose proof (events_dict_of_keyed _ _ _ Hk) as Hkey.
    pose proof (events_dict_of_from _ _ _ Hk) as Hin.
    cbv beta in Hkey, Hin.
    rewrite key_of_text, create_event_key_text in Hkey.
    rewrite Forall_forall in Hstarts, Hids.
    apply list_elem_of_In in Hin.
    destruct (append_underscore_split_last _ _ _ _ Hstart (Hstarts _ Hin) Hkey)
      as [Hid _].
    apply (Hids _ Hin). now rewrite Hid. }
  split; [exact Hnone | now apply reconcile_missing].
Qed.

Lemma existing_events_keyed_witness :
  exists existing_events st',
    get_existing_events (initial_state Example.busy) = (Ok existing_events, st')
    /\ map_Forall (fun k ev =>
                     k = py_str (x_id ev) +:+ "_" +:+ py_str (o_dateTime (x_start ev))
                     /\ In ev (dict_get (Some [Example.standup_copy]) []))
                  existing_events
    /\ (size existing_events <= length (dict_get (Some [Example.standup_copy]) []))%nat.
Proof.
  apply (existing_events_keyed (initial_state Example.busy) Example.jan10
           (snd (Scripted.tick Example.busy)) (Some [Example.standup_copy])
           (snd (Scripted.tick Example.busy)));
    [reflexivity | vm_compute; reflexivity].
Defined.

Lemma unmatched_id_creates_witness :
  events_dict_of [Example.standup_copy; Example.lunch_copy]
    !! create_event_key (gview Example.standup) true = None
  /\ reconcile (events_dict_of [Example.standup_copy; Example.lunch_copy]) Example.standup
     = CREATE (payload_of Example.standup).
Proof.
  apply (unmatched_id_creates [Example.standup_copy; Example.lunch_copy] Example.standup).
  - reflexivity.
  - repeat constructor.
  - repeat constructor; vm_compute; discriminate.
Defined.

Lemma existing_read_never_raises_aux {World : Type} {E : Externals World}
    (st : run_state World) :
  exists existing_events st',
    get_existing_events st = (Ok existing_events, st')
    /\ sent st' = sent st
    /\ exists entry, log st' = log st ++ [entry].
Proof.
  destruct (utcnow (world st)) as [now w1] eqn:Hnow.
  destruct (session_get (existing_request now) w1) as [r w2] eqn:Hget.
  rewrite (get_existing_events_run st now w1 r w2 Hnow Hget).
  destruct r; eexists; eexists; (split; [reflexivity|]); simpl; eauto.
Qed.

(** ** The run as a whole *)

(** X3.  Once the source read gave events, the browser a token and the
    cookie file was read, [sync_calendars] ends without raising, whatever
    the destination read and the writes answer: it issues, in the order of
    the source list, the writes decided against the mapping the destination
    read returned, and logs one line for that read and one for each event. *)
Theorem run_completes {World : Type} {E : Externals World}
    (st : run_state World) (now : Z) (w1 : World) (events : list gevent)
    (w2 : World) (token : pyval) (w3 w4 : World) :
  utcnow (world st) = (now, w1) ->
  events_list_execute (source_request now) w1 = (Ok (Some events), w2) ->
  events <> [] ->
  chrome_access_token w2 = (Ok token, w3) ->
  load_cookies w3 = (Ok tt, w4) ->
  exists existing_events st',
    fst (get_existing_events (set_world w4 st)) = Ok existing_events
    /\ sync_calendars st = (Ok tt, st')
    /\ sent st' = sent st ++ plan token existing_events events
    /\ length (log st') = (length (log st) + 1 + length events)%nat.
Proof.
  intros Hnow Hlist Hevents Htoken Hcookies.
  destruct (existing_read_never_raises_aux (set_world w4 st))
    as (existing_events & st1 & Hread & Hsent1 & entry & Hlog1).
  destruct (sync_loop_spec token existing_events events st1)
    as (st' & Hrun & Hsent & Hlog).
  exists existing_events, st'. split; [now rewrite Hread|].
  split; [|split].
  - unfold sync_calendars. cbv [try_except bind].
    rewrite (read_source_events_run st now w1 _ w2 Hnow Hlist). simpl.
    destruct events as [|event events]; [contradiction|].
    cbv [call_r]. simpl. rewrite Htoken. simpl. rewrite Hcookies.
    change (set_world w4 (set_world w3 (set_world w2 st))) with (set_world w4 st).
    rewrite Hread.
    change (sync_event token existing_events event;;
            for_each events (sync_event token existing_events))
      with (for_each (event :: events) (sync_event token existing_events)).
    now rewrite Hrun.
  - now rewrite Hsent, Hsent1.
  - rewrite Hlog, Hlog1, length_app. simpl. lia.
Qed.

Lemma run_completes_witness :
  exists existing_events st',
    fst (get_existing_events (set_world (snd (Scripted.tick Example.busy))
                                        (initial_state Example.busy)))
      = Ok existing_events
    /\ sync_calendars (initial_state Example.busy) = (Ok tt, st')
    /\ sent st' = sent (initial_state Example.busy)
                  ++ plan (PStr "tok") existing_events [Example.standup; Example.lunch]
    /\ length (log st')
       = (length (log (initial_state Example.busy)) + 1
          + length [Example.standup; Example.lunch])%nat.
Proof.
  apply (run_completes (initial_state Example.busy) Example.jan10
           (snd (Scripted.tick Example.busy)) [Example.standup; Example.lunch]
           (snd (Scripted.tick Example.busy)) (PStr "tok")
           (snd (Scripted.tick Example.busy)) (snd (Scripted.tick Example.busy)));
    [reflexivity | vm_compute; reflexivity | discriminate | reflexivity | reflexivity].
Defined.

Lemma requests_of_well_addressed token existing_events event :
  Forall (well_addressed token existing_events)
         (requests_of token (reconcile existing_events event))
  /\ (length (requests_of token (reconcile existing_events event)) <= 1)%nat.
Proof.
  unfold reconcile.
  destruct (existing_events !! create_event_key (gview event) true)
    as [stored|] eqn:Hk.
  - destruct (needs_update _ _ _); simpl; (split; [|lia]).
    + apply Forall_cons. split; [|constructor].
      split; [reflexivity|]. right. split; [reflexivity|]. eauto.
    + constructor.
  - simpl. split; [|lia]. apply Forall_cons. split; [|constructor].
    split; [reflexivity|]. left. split; reflexivity.
Qed.

(** X4.  The loop writes at most once for each source event, and only a
    POST to the events collection or a PATCH to an event of the mapping,
    each with the bearer token of the run. *)
Theorem writes_well_addressed {World : Type} {E : Externals World} (token : pyval)
    (existing_events : gmap string existing_event) (events : list gevent)
    (st : run_state World) :
  exists st' writes,
    for_each events (sync_event token existing_events) st = (Ok tt, st')
    /\ sent st' = sent st ++ writes
    /\ Forall (well_addressed token existing_events) writes
    /\ (length writes <= length events)%nat.
Proof.
  destruct (sync_loop_spec token existing_events events st) as (st' & Hrun & Hsent & _).
  exists st', (plan token existing_events events).
  split; [exact Hrun|]. split; [exact Hsent|].
  clear. induction events as [|event events [IHshape IHlen]]; [split; [constructor | reflexivity]|].
  destruct (requests_of_well_addressed token existing_events event) as [Hshape Hlen].
  change (plan token existing_events (event :: events))
    with (requests_of token (reconcile existing_events event)
          ++ plan token existing_events events).
  split.
  - apply Forall_app. split; assumption.
  - rewrite length_app. simpl. lia.
Qed.

(** X5.  The time zones are not compared: for an event whose title,
    timestamps and location equal the stored event's, a change of the time
    zone of its start or end leaves the decision at SKIP and nothing is
    written. *)
Theorem time_zone_ignored (token : pyval)
    (existing_events : gmap string existing_event) (event : gevent)
    (stored : existing_event) (start_zone end_zone : option pyval) :
  existing_events !! create_event_key (gview event) true = Some stored ->
  ~ differs stored (payload_of event) ->
  reconcile existing_events (set_time_zones event start_zone end_zone) = SKIP
  /\ plan token existing_events [set_time_zones event start_zone end_zone] = [].
Proof.
  intros Hkey Hsame.
  assert (Hskip : reconcile existing_events (set_time_zones event start_zone end_zone)
                  = SKIP).
  { rewrite (reconcile_found _ _ stored) by exact Hkey.
    apply needs_update_same in Hsame.
    change (needs_update stored
              (subject (payload_of (set_time_zones event start_zone end_zone)))
              (payload_of (set_time_zones event start_zone end_zone)))
      with (needs_update stored (subject (payload_of event)) (payload_of event)).
    now rewrite Hsame. }
  split; [exact Hskip|]. unfold plan. simpl. now rewrite Hskip.
Qed.

Lemma time_zone_ignored_witness :
  reconcile Example.synced
    (set_time_zones Example.standup (Some (PStr "America/New_York"))
                    (Some (PStr "America/New_York"))) = SKIP
  /\ plan (PStr "tok") Example.synced
       [set_time_zones Example.standup (Some (PStr "America/New_York"))
                       (Some (PStr "America/New_York"))] = [].
Proof.
  apply (time_zone_ignored (PStr "tok") Example.synced Example.standup
           Example.standup_copy).
  - reflexivity.
  - apply needs_update_same. reflexivity.
Defined.

(** * Properties of the entry points *)

Section EntryFacts.
Context {World : Type} {E : Externals World} {D : Desktop World}.


(** One more answer of the world, or one more test of the program. *)
Ltac answer :=
  match goal with
  | |- context [token_exists ?w] => destruct (token_exists w) as [[|] ?] eqn:?
  | |- context [load_token ?w] => destruct (load_token w) as [[[?|]|?] ?] eqn:?
  | |- context [refresh ?c ?w] => destruct (refresh c w) as [[?|?] ?] eqn:?
  | |- context [secrets_exist ?w] => destruct (secrets_exist w) as [[|] ?] eqn:?
  | |- context [run_flow ?w] => destruct (run_flow w) as [[?|?] ?] eqn:?
  | |- context [dump_token ?c ?w] => destruct (dump_token c w) as [[[]|?] ?] eqn:?
  | |- context [build_service ?c ?w] => destruct (build_service c w) as [[[]|?] ?] eqn:?
  | |- context [valid ?c] => destruct (valid c) eqn:?
  | |- context [expired ?c && truthy (refresh_token ?c)] =>
      destruct (expired c && truthy (refresh_token c)) eqn:?
  end; simpl.


(** One more answer of the browser. *)
Ltac browse :=
  match goal with
  | |- context [chrome_start ?w] => destruct (chrome_start w) as [[[]|?] ?] eqn:?
  | |- context [open_login_page ?w] => destruct (open_login_page w) as [[[]|?] ?] eqn:?
  | |- context [entry_get ?f ?w] => destruct (entry_get f w) as [? ?] eqn:?
  | |- context [submit_email ?a ?w] => destruct (submit_email a w) as [[[]|?] ?] eqn:?
  | |- context [wait_password ?w] => destruct (wait_password w) as [[[]|?] ?] eqn:?
  | |- context [submit_password ?a ?w] =>
      destruct (submit_password a w) as [[[]|?] ?] eqn:?
  | |- context [get_cookies ?w] => destruct (get_cookies w) as [[?|?] ?] eqn:?
  | |- context [store_cookies ?a ?w] => destruct (store_cookies a w) as [[[]|?] ?] eqn:?
  | |- context [driver_quit ?w] => destruct (driver_quit w) as [[[]|?] ?] eqn:?
  end; simpl.

Lemma step_sent {A : Type} (f : World -> attempt A * World) (st : run_state World) :
  sent (snd (step f st)) = sent st.
Proof. unfold step. now destruct (f (world st)). Qed.

Lemma o365_login_sent (st : run_state World) :
  sent (snd (o365_login st)) = sent st.
Proof.
  cbv [o365_login and_then step read_entry note push_log set_world]. simpl.
  repeat browse; reflexivity.
Qed.

Lemma o365_failure_spec (e : selenium_error) (st : run_state World) :
  exists line text,
    o365_failure e st
    = (Ok false,
       set_world (showerror "Error" text (world st)) (push_log (ERROR, line) st)).
Proof. destruct e; do 2 eexists; reflexivity. Qed.

(** X7.  [authenticate_o365] returns [True] exactly when the browser
    started and every step of the login, down to the writing of the cookie
    file, went through.  It raises only when closing the browser fails, and
    then with that failure.  It writes nothing to the destination
    calendar. *)
Theorem o365_outcomes (st : run_state World) :
  match authenticate_o365 st with
  | (Ok answer, st') =>
      sent st' = sent st
      /\ (answer = true
          <-> exists st1 st2,
                step chrome_start st = (Done tt, st1)
                /\ o365_login st1 = (Done tt, st2))
  | (Raise e, st') =>
      sent st' = sent st
      /\ exists st3 err, step driver_quit st3 = (Failed err, st') /\ e = as_exn err
  end.
Proof.
  unfold authenticate_o365.
  pose proof (step_sent chrome_start st) as Hs1.
  destruct (step chrome_start st) as [[[]|e] st1] eqn:Hstart; simpl in Hs1.
  - pose proof (o365_login_sent st1) as Hs2.
    destruct (o365_login st1) as [[[]|e] st2] eqn:Hlogin; simpl in Hs2.
    + cbv [bind logger ret]. simpl.
      match goal with
      | |- context [step driver_quit ?s] =>
          pose proof (step_sent driver_quit s) as Hs3;
          destruct (step driver_quit s) as [[[]|err] st4] eqn:Hquit
      end; simpl in Hs3.
      * split; [congruence|]. split; [eauto|reflexivity].
      * split; [congruence|]. eauto.
    + destruct (o365_failure_spec e st2) as (line & text & ->).
      match goal with
      | |- context [step driver_quit ?s] =>
          pose proof (step_sent driver_quit s) as Hs3;
          destruct (step driver_quit s) as [[[]|err] st4] eqn:Hquit
      end; simpl in Hs3.
      * split; [congruence|]. split; [discriminate|].
        intros (st1' & st2' & Hst1 & Hst2).
        injection Hst1 as <-. rewrite Hlogin in Hst2. discriminate.
      * split; [congruence|]. eauto.
  - destruct (o365_failure_spec e st1) as (line & text & ->). simpl.
    split; [exact Hs1|]. split; [discriminate|].
    intros (st1' & st2' & Hst1 & _). discriminate.
Qed.


End EntryFacts.
